(** * Akai MPD218 control-device driver: a shallow embedding

    Source: [zynthian_ctrldev_akai_mpd_218.py], class
    [zynthian_ctrldev_akai_mpd_218].  The driver decodes 3-byte MIDI
    channel-voice messages into calls on two collaborators, the step
    sequencer ([self.zynseq]) and the mixer ([self.zynmixer]), and keeps a
    single mutable attribute, [currentNotePressed].

    Python integers are unbounded, so they are [Z]; [//] and [%] round
    towards minus infinity, like [Z.div] and [Z.modulo]; [>>] and [&] are
    [Z.shiftr] and [Z.land].  True division [/] of two ints yields the
    binary64 float nearest to the exact quotient, or OverflowError; it is
    computed on the exact integers and handed over as a primitive float.
    Methods run in a monad
    that threads the instance, accumulates the collaborator calls in the
    order they are made and propagates Python exceptions. *)

From Stdlib Require Import ZArith List String Bool Lia QArith Qabs.
From Stdlib Require Import Floats.
Import ListNotations.

Local Open Scope Z_scope.

(** ** Python values and exceptions *)

Module Py.

Inductive exn : Type :=
| IndexError
| ZeroDivisionError
| OverflowError.

(** The result of evaluating an expression or running a statement:
    a value, or a raised exception. *)
Inductive outcome (A : Type) : Type :=
| Ok (a : A)
| Raise (e : exn).
Arguments Ok {A} a.
Arguments Raise {A} e.

Definition obind {A B} (m : outcome A) (f : A -> outcome B) : outcome B :=
  match m with
  | Ok a => f a
  | Raise e => Raise e
  end.

(** [a // b] *)
Definition floordiv (a b : Z) : outcome Z :=
  if b =? 0 then Raise ZeroDivisionError else Ok (a / b).

(** [a % b] *)
Definition mod_ (a b : Z) : outcome Z :=
  if b =? 0 then Raise ZeroDivisionError else Ok (a mod b).

(** An int as an operand of the division below: the mantissa of a
    [spec_float] is unbounded, so the integer is held exactly, whatever its
    size. *)
Definition SF_of_Z (z : Z) : spec_float :=
  match z with
  | Z0 => S754_zero false
  | Zpos p => S754_finite false p 0
  | Zneg p => S754_finite true p 0
  end.

(** [a / b] on two ints: the exact quotient rounded once, to nearest even,
    to binary64 (subnormals and signed zeros included); OverflowError when
    the rounded quotient lies beyond the largest float. *)
Definition truediv (a b : Z) : outcome float :=
  if b =? 0 then Raise ZeroDivisionError
  else match SFdiv prec emax (SF_of_Z a) (SF_of_Z b) with
       | S754_infinity _ => Raise OverflowError
       | q => Ok (SF2Prim q)
       end.

(** [ev[i]] on a sequence. *)
Definition index {A} (ev : list A) (i : nat) : outcome A :=
  match nth_error ev i with
  | Some x => Ok x
  | None => Raise IndexError
  end.

(** [lo <= x <= hi], Python's chained comparison. *)
Definition between (lo x hi : Z) : bool := (lo <=? x) && (x <=? hi).

(** The exact rational value of a finite float ([0] for the others). *)
Definition Q_of_float (f : float) : Q :=
  match Prim2SF f with
  | S754_finite sg m e =>
      let mag := (inject_Z (Zpos m) * Qpower 2 e)%Q in
      if sg then Qopp mag else mag
  | _ => 0%Q
  end.

End Py.
Import Py.

(** ** Constants *)

(** Modelled from the spec: [CONST] is imported from
    [zyngine.ctrldev.zynthian_ctrldev_base_extended], which is not part of
    this repository's sources.  The spec fixes the three type nibbles the
    dispatcher reads from it: note-off=0x8, note-on=0x9,
    control-change=0xB. *)
Module CONST.
Definition MIDI_NOTE_OFF : Z := 0x8.
Definition MIDI_NOTE_ON : Z := 0x9.
Definition MIDI_CC : Z := 0xB.
End CONST.

Definition PAD_BANK_A_NOTE_PAD_START : Z := 36.
Definition PAD_BANK_B_NOTE_PAD_START : Z := 52.
Definition PAD_BANK_C_NOTE_PAD_START : Z := 68.

Definition PAD_BANK_A_NOTE_PAD_END : Z := 51.
Definition PAD_BANK_B_NOTE_PAD_END : Z := 67.
Definition PAD_BANK_C_NOTE_PAD_END : Z := 83.

Definition CTRL_BANK_A_NOTE_DIAL_START : Z := 3.
Definition CTRL_BANK_B_NOTE_DIAL_START : Z := 16.
Definition CTRL_BANK_C_NOTE_DIAL_START : Z := 22.

Definition CTRL_BANK_A_NOTE_DIAL_END : Z := 15.
Definition CTRL_BANK_B_NOTE_DIAL_END : Z := 21.
Definition CTRL_BANK_C_NOTE_DIAL_END : Z := 27.

Definition MAX_DIAL : Z := 127.
Definition MAX_PRESSURE : Z := 127.

Definition PADS_IN_ROW : Z := 4.
Definition PADS_IN_COLUMN : Z := 4.

(** ** The note decoder *)

(** [get_note_xy(self, note)]: three independent [if] statements update the
    locals [bank] and [note_start_offset] in turn, then the coordinate is
    computed from whatever offset is left. *)
Definition get_note_xy (note : Z) : outcome (Z * Z * string) :=
  let note_start_offset := 0 in
  let bank := ""%string in
  let '(bank, note_start_offset) :=
    if between PAD_BANK_A_NOTE_PAD_START note PAD_BANK_A_NOTE_PAD_END
    then ("A"%string, PAD_BANK_A_NOTE_PAD_START)
    else (bank, note_start_offset) in
  let '(bank, note_start_offset) :=
    if between PAD_BANK_B_NOTE_PAD_START note PAD_BANK_B_NOTE_PAD_END
    then ("B"%string, PAD_BANK_B_NOTE_PAD_START)
    else (bank, note_start_offset) in
  let '(bank, note_start_offset) :=
    if between PAD_BANK_C_NOTE_PAD_START note PAD_BANK_C_NOTE_PAD_END
    then ("C"%string, PAD_BANK_C_NOTE_PAD_START)
    else (bank, note_start_offset) in
  obind (floordiv (note - note_start_offset) PADS_IN_ROW) (fun q =>
  let row := 4 - q - 1 in
  obind (mod_ (note - note_start_offset) PADS_IN_COLUMN) (fun col =>
  Ok (col, row, bank))).

(** ** Collaborators and the driver instance *)

(** Every use of a collaborator, in the order the driver makes it. *)
Inductive call : Type :=
| GetPadFromXY (col row : Z)
    (* self.zynseq.get_pad_from_xy(col, row) *)
| TogglePlayState (bank pad : Z)
    (* self.zynseq.libseq.togglePlayState(bank, pad) *)
| SetPlayState (bank pad state : Z)
    (* self.zynseq.libseq.setPlayState(bank, pad, state) *)
| SetLevel (channel : Z) (level : float).
    (* self.zynmixer.set_level(channel, level) *)

(** What the driver reads back from [self.zynseq]: the current bank and the
    answer of the pad lookup.  The sequencer is an external collaborator, so
    both are arbitrary. *)
Module Zynseq.
Record t : Type := { bank : Z; get_pad_from_xy : Z -> Z -> Z }.
End Zynseq.

(** The instance attributes the driver itself owns. *)
Record driver : Type := { currentNotePressed : Z }.

(** The class attribute [currentNotePressed = -1] a fresh instance sees. *)
Definition fresh : driver := {| currentNotePressed := -1 |}.

(** ** The method monad: instance state, call trace, exceptions

    A raised exception leaves the instance and the calls made so far in
    place, as in Python. *)

Definition M (A : Type) : Type := driver -> outcome A * driver * list call.

Definition ret {A} (a : A) : M A := fun self => (Ok a, self, []).

Definition bind {A B} (m : M A) (f : A -> M B) : M B := fun self =>
  match m self with
  | (Ok a, self1, t1) =>
      let '(r, self2, t2) := f a self1 in (r, self2, t1 ++ t2)
  | (Raise e, self1, t1) => (Raise e, self1, t1)
  end.

Definition lift {A} (o : outcome A) : M A := fun self => (o, self, []).

Definition emit (c : call) : M unit := fun self => (Ok tt, self, [c]).

Definition get_currentNotePressed : M Z :=
  fun self => (Ok (currentNotePressed self), self, []).

Definition set_currentNotePressed (n : Z) : M unit :=
  fun _ => (Ok tt, {| currentNotePressed := n |}, []).

Declare Scope py_scope.
Delimit Scope py_scope with py.
Notation "x <- m ;; k" := (bind m (fun x => k))
  (at level 61, m at next level, right associativity) : py_scope.
Notation "' p <- m ;; k" := (bind m (fun x => let 'p := x in k))
  (at level 61, p pattern, m at next level, right associativity) : py_scope.
Notation "m ;; k" := (bind m (fun _ => k))
  (at level 61, right associativity) : py_scope.
Local Open Scope py_scope.

(** Projections of a run. *)
Definition result {A} (r : outcome A * driver * list call) : outcome A :=
  fst (fst r).
Definition final {A} (r : outcome A * driver * list call) : driver :=
  snd (fst r).
Definition calls {A} (r : outcome A * driver * list call) : list call :=
  snd r.

(** A Python return value of the handlers: [None] or a [bool]. *)
Definition pyret : Type := option bool.

(** ** The CC decoder's channel resolution *)

(** The local [mixer_channel] of [cc_change] once its three range tests
    have run. *)
Definition cc_mixer_channel (ccnum : Z) : Z :=
  let mixer_channel := -1 in
  let mixer_channel :=
    if between CTRL_BANK_A_NOTE_DIAL_START ccnum CTRL_BANK_A_NOTE_DIAL_END then
      let mixer_channel := if ccnum =? 3 then 0 else mixer_channel in
      let mixer_channel := if ccnum =? 9 then 1 else mixer_channel in
      let mixer_channel := if ccnum =? 12 then 2 else mixer_channel in
      let mixer_channel :=
        if between 13 ccnum CTRL_BANK_A_NOTE_DIAL_END
        then ccnum - CTRL_BANK_A_NOTE_DIAL_START else mixer_channel in
      mixer_channel
    else mixer_channel in
  let mixer_channel :=
    if between CTRL_BANK_B_NOTE_DIAL_START ccnum CTRL_BANK_B_NOTE_DIAL_END
    then ccnum - CTRL_BANK_B_NOTE_DIAL_START else mixer_channel in
  let mixer_channel :=
    if between CTRL_BANK_C_NOTE_DIAL_START ccnum CTRL_BANK_C_NOTE_DIAL_END
    then ccnum - CTRL_BANK_C_NOTE_DIAL_START else mixer_channel in
  mixer_channel.

(** ** The handlers *)

Section Driver.

Variable zynseq : Zynseq.t.

Definition note_on (note channel velocity : Z) : M pyret :=
  '(col, row, bank) <- lift (get_note_xy note) ;;
  set_currentNotePressed note ;;
  emit (GetPadFromXY col row) ;;
  let pad := Zynseq.get_pad_from_xy zynseq col row in
  if pad >=? 0 then
    emit (TogglePlayState (Zynseq.bank zynseq) pad) ;;
    ret (Some true)
  else ret None.

Definition note_off (note channel : Z) : M pyret :=
  set_currentNotePressed (-1) ;;
  ret None.

(** The [logging.debug] line only formats two integers; it touches
    neither the instance nor a collaborator. *)
Definition pressureChange (channel pressure : Z) : M pyret :=
  if pressure =? MAX_PRESSURE then
    n <- get_currentNotePressed ;;
    emit (SetPlayState (Zynseq.bank zynseq) n 0) ;;
    n <- get_currentNotePressed ;;
    emit (SetPlayState (Zynseq.bank zynseq) (n + 1) 0) ;;
    n <- get_currentNotePressed ;;
    emit (SetPlayState (Zynseq.bank zynseq) (n + 2) 0) ;;
    n <- get_currentNotePressed ;;
    emit (SetPlayState (Zynseq.bank zynseq) (n + 3) 0) ;;
    ret None
  else ret None.

Definition cc_change (ccnum ccval : Z) : M pyret :=
  let mixer_channel := cc_mixer_channel ccnum in
  if mixer_channel >? -1 then
    level <- lift (truediv ccval MAX_DIAL) ;;
    emit (SetLevel mixer_channel level) ;;
    ret None
  else ret None.

Definition midi_event (ev : list Z) : M pyret :=
  b0 <- lift (index ev 0) ;;
  let evtype := Z.land (Z.shiftr b0 4) 0x0F in
  b1 <- lift (index ev 1) ;;
  let note := Z.land b1 0x7F in
  b2 <- lift (index ev 2) ;;
  let velocity := Z.land b2 0x7F in
  b0 <- lift (index ev 0) ;;
  let channel := Z.land b0 0x0F in
  if evtype =? CONST.MIDI_NOTE_ON then
    note_on note channel velocity ;; ret None
  else if evtype =? CONST.MIDI_NOTE_OFF then
    note_off note channel ;; ret None
  else if evtype =? CONST.MIDI_CC then
    b1 <- lift (index ev 1) ;;
    let ccnum := Z.land b1 0x7F in
    b2 <- lift (index ev 2) ;;
    let ccval := Z.land b2 0x7F in
    cc_change ccnum ccval ;; ret None
  else if evtype =? 0xD then
    pressureChange channel note ;; ret None
  else ret None.

(** The host delivers events one at a time, each handled to completion;
    an exception stops the delivery. *)
Fixpoint deliver (evs : list (list Z)) : M unit :=
  match evs with
  | [] => ret tt
  | ev :: rest => midi_event ev ;; deliver rest
  end.

End Driver.

(** ** Sample sequencers and events used by the examples *)

(** A 4x4 layout in the style of the sequencer's grid: pads are numbered
    down the columns, and a coordinate off the grid has no pad. *)
Definition grid4 : Zynseq.t :=
  {| Zynseq.bank := 1;
     Zynseq.get_pad_from_xy := fun col row =>
       if between 0 col 3 && between 0 row 3 then row + 4 * col else -1 |}.

(** A sequencer whose bank holds no pad at all. *)
Definition empty_bank : Zynseq.t :=
  {| Zynseq.bank := 1; Zynseq.get_pad_from_xy := fun _ _ => -1 |}.

Definition ev_note_on (ch note vel : Z) : list Z := [0x90 + ch; note; vel].
Definition ev_note_off (ch note : Z) : list Z := [0x80 + ch; note; 0].
Definition ev_cc (ch ccnum ccval : Z) : list Z := [0xB0 + ch; ccnum; ccval].
Definition ev_pressure (ch value : Z) : list Z := [0xD0 + ch; value; 0].

(** ** The behaviour the specification words, for comparison *)

(** The dial table as the specification lists it: bank A answers CC 3, 9,
    12, 13, 14 and 15 with channels 0, 1, 2, 10, 11 and 12; bank B answers
    16..21 with [ccnum - 16]; bank C answers 22..27 with [ccnum - 22];
    nothing else resolves. *)
Definition dial_channel_spec (ccnum : Z) : option Z :=
  if ccnum =? 3 then Some 0
  else if ccnum =? 9 then Some 1
  else if ccnum =? 12 then Some 2
  else if ccnum =? 13 then Some 10
  else if ccnum =? 14 then Some 11
  else if ccnum =? 15 then Some 12
  else if between 16 ccnum 21 then Some (ccnum - 16)
  else if between 22 ccnum 27 then Some (ccnum - 22)
  else None.

(** The two-state machine of the specification's pressure tracker. *)
Inductive pad_state : Type :=
| Idle
| Held (note : Z).

(** How [LastPressedNote] stores a [pad_state]. *)
Definition encode (st : pad_state) : Z :=
  match st with
  | Idle => -1
  | Held n => n
  end.

(** The type nibble of a status byte, [(ev[0] >> 4) & 0x0F]. *)
Definition evtype_of (status : Z) : Z := Z.land (Z.shiftr status 4) 0x0F.

(** note-on(n) -> Held(n); note-off(_) -> Idle; anything else stays. *)
Definition transition (st : pad_state) (ev : list Z) : pad_state :=
  match ev with
  | status :: data1 :: _ =>
      if evtype_of status =? 0x9 then Held (Z.land data1 0x7F)
      else if evtype_of status =? 0x8 then Idle
      else st
  | _ => st
  end.

(** The scene a full-pressure event launches from pad index [n]. *)
Definition scene (bank n : Z) : list call :=
  [SetPlayState bank n 0; SetPlayState bank (n + 1) 0;
   SetPlayState bank (n + 2) 0; SetPlayState bank (n + 3) 0].

(** The level [cc_change] hands to the mixer for a CC value: the float
    that [ccval / MAX_DIAL] evaluates to when the division returns. *)
Definition level_of (ccval : Z) : float :=
  SF2Prim (SFdiv prec emax (SF_of_Z ccval) (SF_of_Z MAX_DIAL)).
Arguments level_of : simpl never.

(** A level is acceptable when it lies in [0,1] and is the binary64
    nearest to the exact quotient: within half a unit in the last place
    of 1, that is [2^-54], of [ccval / 127]. *)
Definition level_ok (ccval : Z) (level : float) : bool :=
  PrimFloat.leb 0 level && PrimFloat.leb level 1 &&
  Qle_bool (Qabs (Q_of_float level - (ccval # 127))) (1 # 2 ^ 54).

Example get_note_xy_36 : get_note_xy 36 = Ok (0, 3, "A"%string).
Proof. reflexivity. Qed.

Example truediv_127 : truediv 127 127 = Ok 1%float.
Proof. reflexivity. Qed.

Example truediv_large : truediv (2 ^ 63) 127 = Ok 72624976668147840%float.
Proof. vm_compute. reflexivity. Qed.

Example truediv_once_rounded :
  truediv (2 ^ 53 + 1) 3 = Ok 3002399751580331%float.
Proof. vm_compute. reflexivity. Qed.

Example truediv_overflow : truediv (10 ^ 400) 127 = Raise OverflowError.
Proof. vm_compute. reflexivity. Qed.

Example cc_change_overflow :
  cc_change 16 (10 ^ 400) fresh = (Raise OverflowError, fresh, []).
Proof. vm_compute. reflexivity. Qed.

Example Q_of_float_half : Q_of_float 0.5%float == 1 # 2.
Proof. vm_compute. reflexivity. Qed.

Example note_on_40 :
  note_on grid4 40 9 100 fresh
  = (Ok (Some true), {| currentNotePressed := 40 |},
     [GetPadFromXY 0 2; TogglePlayState 1 2]).
Proof. reflexivity. Qed.

Example deliver_scene :
  calls (deliver grid4 [ev_note_on 9 40 100; ev_pressure 9 127] fresh)
  = [GetPadFromXY 0 2; TogglePlayState 1 2;
     SetPlayState 1 40 0; SetPlayState 1 41 0;
     SetPlayState 1 42 0; SetPlayState 1 43 0].
Proof. reflexivity. Qed.

Example midi_event_short :
  result (midi_event grid4 [0x90; 40] fresh) = Raise IndexError.
Proof. reflexivity. Qed.

Example cc_64 :
  calls (cc_change 16 64 fresh) = [SetLevel 0 (64 / 127)%float].
Proof. reflexivity. Qed.

(** * Properties *)

(** ** Tactics *)

(** Settle every integer test of the goal whose outcome [lia] knows. *)
Ltac settle_tests :=
  repeat match goal with
  | |- context [?a <=? ?b] =>
      first
        [ replace (a <=? b) with true by (symmetry; apply Z.leb_le; lia)
        | replace (a <=? b) with false by (symmetry; apply Z.leb_gt; lia) ]
  | |- context [?a =? ?b] =>
      first
        [ replace (a =? b) with true by (symmetry; apply Z.eqb_eq; lia)
        | replace (a =? b) with false by (symmetry; apply Z.eqb_neq; lia) ]
  | |- context [?a >=? ?b] =>
      first
        [ replace (a >=? b) with true by (symmetry; apply Z.geb_le; lia)
        | replace (a >=? b) with false
            by (symmetry; rewrite Z.geb_leb; apply Z.leb_gt; lia) ]
  | |- context [?a >? ?b] =>
      first
        [ replace (a >? b) with true by (symmetry; apply Z.gtb_lt; lia)
        | replace (a >? b) with false
            by (symmetry; rewrite Z.gtb_ltb; apply Z.ltb_ge; lia) ]
  end.

Ltac unfold_consts :=
  unfold between,
    PAD_BANK_A_NOTE_PAD_START, PAD_BANK_A_NOTE_PAD_END,
    PAD_BANK_B_NOTE_PAD_START, PAD_BANK_B_NOTE_PAD_END,
    PAD_BANK_C_NOTE_PAD_START, PAD_BANK_C_NOTE_PAD_END,
    CTRL_BANK_A_NOTE_DIAL_START, CTRL_BANK_A_NOTE_DIAL_END,
    CTRL_BANK_B_NOTE_DIAL_START, CTRL_BANK_B_NOTE_DIAL_END,
    CTRL_BANK_C_NOTE_DIAL_START, CTRL_BANK_C_NOTE_DIAL_END,
    MAX_DIAL, MAX_PRESSURE, PADS_IN_ROW, PADS_IN_COLUMN,
    CONST.MIDI_NOTE_ON, CONST.MIDI_NOTE_OFF, CONST.MIDI_CC in *.

(** ** The note decoder, range by range *)

(** Rows are counted from the top: [4 - q - 1] is [3 - q]. *)
Lemma row_inverted (q : Z) : 4 - q - 1 = 3 - q.
Proof. lia. Qed.

(** The coordinate formula once the range tests have chosen the offset. *)
Lemma get_note_xy_in_range (note start : Z) (name : string) :
  (start = 36 /\ name = "A"%string /\ 36 <= note <= 51) \/
  (start = 52 /\ name = "B"%string /\ 52 <= note <= 67) \/
  (start = 68 /\ name = "C"%string /\ 68 <= note <= 83) ->
  get_note_xy note
  = Ok ((note - start) mod 4, 3 - (note - start) / 4, name).
Proof.
  intros [(-> & -> & H) | [(-> & -> & H) | (-> & -> & H)]];
    unfold get_note_xy, floordiv, mod_; unfold_consts;
    settle_tests; cbn [andb obind];
    rewrite row_inverted; reflexivity.
Qed.

Lemma get_note_xy_out_of_range (note : Z) :
  note < 36 \/ 83 < note ->
  get_note_xy note = Ok (note mod 4, 3 - note / 4, ""%string).
Proof.
  intros H.
  unfold get_note_xy, floordiv, mod_; unfold_consts.
  destruct H; settle_tests; cbn [andb obind];
    rewrite ?andb_false_r, Z.sub_0_r, row_inverted; reflexivity.
Qed.

(** No argument makes the decoder raise. *)
Lemma get_note_xy_total (note : Z) :
  exists col row name, get_note_xy note = Ok (col, row, name).
Proof.
  unfold get_note_xy, floordiv, mod_, PADS_IN_ROW, PADS_IN_COLUMN.
  change (4 =? 0) with false.
  repeat match goal with |- context [if ?b then _ else _] => destruct b end;
    cbn [obind]; eauto.
Qed.


(** ** Arithmetic on the byte domain *)

(** Masking a data byte leaves a value in [0,127], and masking twice is
    masking once. *)
Lemma land_127_range (d : Z) : 0 <= Z.land d 0x7F <= 127.
Proof.
  change (Z.land d 0x7F) with (Z.land d (Z.ones 7)).
  rewrite Z.land_ones by lia. change (2 ^ 7) with 128.
  pose proof (Z.mod_pos_bound d 128). lia.
Qed.

Lemma land_127_idem (d : Z) : Z.land (Z.land d 0x7F) 0x7F = Z.land d 0x7F.
Proof. rewrite <- Z.land_assoc. reflexivity. Qed.

(** All 128 CC values, checked by evaluation. *)
Lemma level_of_all_ok :
  forallb (fun k => level_ok (Z.of_nat k) (level_of (Z.of_nat k))) (seq 0 128)
  = true.
Proof. vm_compute. reflexivity. Qed.

Lemma level_of_ok (ccval : Z) :
  0 <= ccval <= 127 -> level_ok ccval (level_of ccval) = true.
Proof.
  intros H. pose proof level_of_all_ok as Hall.
  rewrite forallb_forall in Hall.
  specialize (Hall (Z.to_nat ccval)).
  rewrite Z2Nat.id in Hall by lia. apply Hall, in_seq. lia.
Qed.

(** On none of the 128 CC values does the division overflow. *)
Lemma truediv_byte_finite :
  forallb (fun k =>
             match SFdiv prec emax (SF_of_Z (Z.of_nat k))
                     (SF_of_Z MAX_DIAL) with
             | S754_infinity _ => false
             | _ => true
             end) (seq 0 128) = true.
Proof. vm_compute. reflexivity. Qed.

Lemma truediv_byte (ccval : Z) :
  0 <= ccval <= 127 -> truediv ccval MAX_DIAL = Ok (level_of ccval).
Proof.
  intros H. pose proof truediv_byte_finite as Hall.
  rewrite forallb_forall in Hall.
  specialize (Hall (Z.to_nat ccval) ltac:(apply in_seq; lia)).
  rewrite Z2Nat.id in Hall by lia.
  unfold truediv, level_of. change (MAX_DIAL =? 0) with false. cbv iota.
  destruct (SFdiv prec emax (SF_of_Z ccval) (SF_of_Z MAX_DIAL));
    try reflexivity; discriminate Hall.
Qed.

(** ** The handlers, as equations *)

Lemma bind_lift_Ok {A B} (a : A) (f : A -> M B) (self : driver) :
  bind (lift (Ok a)) f self = f a self.
Proof.
  unfold bind, lift. destruct (f a self) as [[r self2] t2]. reflexivity.
Qed.

Section Handlers.

Variable zynseq : Zynseq.t.

Lemma note_on_eq (note channel velocity : Z) (self : driver) col row name :
  get_note_xy note = Ok (col, row, name) ->
  note_on zynseq note channel velocity self
  = let pad := Zynseq.get_pad_from_xy zynseq col row in
    if pad >=? 0
    then (Ok (Some true), {| currentNotePressed := note |},
          [GetPadFromXY col row; TogglePlayState (Zynseq.bank zynseq) pad])
    else (Ok None, {| currentNotePressed := note |}, [GetPadFromXY col row]).
Proof.
  intros H. unfold note_on, bind, lift. rewrite H. cbn.
  destruct (_ >=? 0); reflexivity.
Qed.

Lemma note_on_final (note channel velocity : Z) (self : driver) :
  exists r,
    result (note_on zynseq note channel velocity self) = Ok r /\
    final (note_on zynseq note channel velocity self)
    = {| currentNotePressed := note |}.
Proof.
  destruct (get_note_xy_total note) as (col & row & name & H).
  rewrite (note_on_eq _ _ _ _ _ _ _ H). cbn.
  destruct (_ >=? 0); cbn; eauto.
Qed.

Lemma note_off_eq (note channel : Z) (self : driver) :
  note_off note channel self = (Ok None, {| currentNotePressed := -1 |}, []).
Proof. reflexivity. Qed.

Lemma pressureChange_eq (channel pressure : Z) (self : driver) :
  pressureChange zynseq channel pressure self
  = (Ok None, self,
     if pressure =? 127
     then scene (Zynseq.bank zynseq) (currentNotePressed self)
     else []).
Proof.
  unfold pressureChange, MAX_PRESSURE.
  destruct (pressure =? 127); reflexivity.
Qed.

(** [cc_change] on any integers: the division is evaluated only when a
    channel was resolved, and an exception it raises leaves before the
    mixer is called. *)
Lemma cc_change_eq (ccnum ccval : Z) (self : driver) :
  cc_change ccnum ccval self
  = if cc_mixer_channel ccnum >? -1
    then match truediv ccval MAX_DIAL with
         | Ok level =>
             (Ok None, self, [SetLevel (cc_mixer_channel ccnum) level])
         | Raise e => (Raise e, self, [])
         end
    else (Ok None, self, []).
Proof.
  unfold cc_change, bind, lift.
  destruct (_ >? -1); [|reflexivity].
  destruct (truediv ccval MAX_DIAL); reflexivity.
Qed.

(** [cc_change] on a CC value of the byte domain. *)
Lemma cc_change_byte (ccnum ccval : Z) (self : driver) :
  0 <= ccval <= 127 ->
  cc_change ccnum ccval self
  = (Ok None, self,
     if cc_mixer_channel ccnum >? -1
     then [SetLevel (cc_mixer_channel ccnum) (level_of ccval)]
     else []).
Proof.
  intros H. rewrite cc_change_eq, (truediv_byte ccval H).
  destruct (_ >? -1); reflexivity.
Qed.

(** [cc_change] as the dispatcher calls it, on a masked data byte. *)
Lemma cc_change_masked (ccnum data2 : Z) (self : driver) :
  cc_change ccnum (Z.land data2 0x7F) self
  = (Ok None, self,
     if cc_mixer_channel ccnum >? -1
     then [SetLevel (cc_mixer_channel ccnum) (level_of (Z.land data2 0x7F))]
     else []).
Proof. apply cc_change_byte, land_127_range. Qed.

(** The dispatcher on a message of three bytes. *)
Lemma midi_event_eq (status data1 data2 : Z) (self : driver) :
  midi_event zynseq [status; data1; data2] self
  = let evtype := evtype_of status in
    let note := Z.land data1 0x7F in
    if evtype =? 0x9 then
      (note_on zynseq note (Z.land status 0x0F) (Z.land data2 0x7F) ;;
       ret None) self
    else if evtype =? 0x8 then
      (Ok None, {| currentNotePressed := -1 |}, [])
    else if evtype =? 0xB then
      cc_change note (Z.land data2 0x7F) self
    else if evtype =? 0xD then
      pressureChange zynseq (Z.land status 0x0F) note self
    else (Ok None, self, []).
Proof.
  unfold midi_event, index, CONST.MIDI_NOTE_ON, CONST.MIDI_NOTE_OFF,
    CONST.MIDI_CC.
  cbn [nth_error]. rewrite !bind_lift_Ok. fold (evtype_of status). cbv zeta.
  destruct (evtype_of status =? 9); [reflexivity|].
  destruct (evtype_of status =? 8); [reflexivity|].
  destruct (evtype_of status =? 11).
  - rewrite !bind_lift_Ok. unfold bind. rewrite cc_change_masked.
    cbn. rewrite app_nil_r. reflexivity.
  - destruct (evtype_of status =? 13); [|reflexivity].
    unfold bind. rewrite pressureChange_eq.
    cbn. rewrite app_nil_r. reflexivity.
Qed.

End Handlers.

(** ** The note decoder *)

(** C3. For every note n in [36,51] the note decoder returns bank A with
    column (n-36) mod 4 and row 3 - (n-36) div 4; for n in [52,67] bank B
    with the same formulas over n-52; for n in [68,83] bank C over n-68.
    In particular 36 decodes to (0, 3, A), 51 to (3, 0, A) and 83 to
    (3, 0, C). *)
Theorem get_note_xy_banks (n : Z) :
  (36 <= n <= 51 ->
   get_note_xy n = Ok ((n - 36) mod 4, 3 - (n - 36) / 4, "A"%string)) /\
  (52 <= n <= 67 ->
   get_note_xy n = Ok ((n - 52) mod 4, 3 - (n - 52) / 4, "B"%string)) /\
  (68 <= n <= 83 ->
   get_note_xy n = Ok ((n - 68) mod 4, 3 - (n - 68) / 4, "C"%string)) /\
  get_note_xy 36 = Ok (0, 3, "A"%string) /\
  get_note_xy 51 = Ok (3, 0, "A"%string) /\
  get_note_xy 83 = Ok (3, 0, "C"%string).
Proof.
  repeat split; try reflexivity; intros H;
    apply get_note_xy_in_range; tauto.
Qed.

Lemma get_note_xy_banks_witness :
  get_note_xy 41 = Ok (1, 2, "A"%string) /\
  get_note_xy 52 = Ok (0, 3, "B"%string) /\
  get_note_xy 79 = Ok (3, 1, "C"%string).
Proof.
  split; [|split].
  - apply (proj1 (get_note_xy_banks 41)). lia.
  - apply (proj1 (proj2 (get_note_xy_banks 52))). lia.
  - apply (proj1 (proj2 (proj2 (get_note_xy_banks 79)))). lia.
Defined.

(** C5. For every note number in [0,127] outside the three pad ranges the
    note decoder does not fail: it returns the empty bank and the coordinate
    computed against offset 0, column n mod 4 and row 3 - n div 4.  The
    note and pressure handlers return normally for all their arguments,
    cc_change returns normally for every CC value of the byte domain
    0..127, and the dispatcher returns normally on every message of three
    bytes. *)
Theorem decoder_and_handlers_total
    (zynseq : Zynseq.t) (n : Z) (ev : list Z) (self : driver) :
  0 <= n <= 127 -> n < 36 \/ 83 < n -> List.length ev = 3%nat ->
  get_note_xy n = Ok (n mod 4, 3 - n / 4, ""%string) /\
  (forall a b c, exists r, result (note_on zynseq a b c self) = Ok r) /\
  (forall a b, exists r, result (note_off a b self) = Ok r) /\
  (forall a b, exists r, result (pressureChange zynseq a b self) = Ok r) /\
  (forall a b, 0 <= b <= 127 ->
               exists r, result (cc_change a b self) = Ok r) /\
  (exists r, result (midi_event zynseq ev self) = Ok r).
Proof.
  intros _ Hout Hlen.
  split; [apply get_note_xy_out_of_range; exact Hout|].
  assert (Hon : forall a b c,
             exists r, result (note_on zynseq a b c self) = Ok r).
  { intros a b c. destruct (note_on_final zynseq a b c self) as (r & Hr & _).
    eauto. }
  repeat split.
  - exact Hon.
  - intros a b. rewrite note_off_eq. cbn. eauto.
  - intros a b. rewrite pressureChange_eq. cbn. eauto.
  - intros a b Hb. rewrite (cc_change_byte a b self Hb). cbn. eauto.
  - destruct ev as [|status [|data1 [|data2 [|]]]]; try discriminate Hlen.
    rewrite midi_event_eq. cbv zeta.
    destruct (evtype_of status =? 9).
    + destruct (Hon (Z.land data1 127) (Z.land status 15) (Z.land data2 127))
        as (r & Hr).
      unfold result, bind in *.
      destruct (note_on _ _ _ _ _) as [[o self1] t1]. cbn in Hr. subst o.
      cbn. eauto.
    + destruct (evtype_of status =? 8); [cbn; eauto|].
      destruct (evtype_of status =? 11);
        [rewrite cc_change_masked; cbn; eauto|].
      destruct (evtype_of status =? 13);
        [rewrite pressureChange_eq; cbn; eauto | cbn; eauto].
Qed.

Lemma decoder_and_handlers_total_witness :
  get_note_xy 127 = Ok (3, -28, ""%string) /\
  exists r, result (midi_event grid4 (ev_note_on 9 127 100) fresh) = Ok r.
Proof.
  pose proof (decoder_and_handlers_total grid4 127 (ev_note_on 9 127 100) fresh)
    as H.
  destruct H as (H1 & _ & _ & _ & _ & H2);
    [lia | right; lia | reflexivity |].
  split; [exact H1 | exact H2].
Defined.

(** C6. For every note n in [0,15], outside all three pad ranges, the
    offset-0 fallback yields the in-range coordinate (n mod 4, 3 - n div 4),
    the very coordinate of the bank-A note n+36; a note-on for n therefore
    queries the pad lookup at that coordinate and makes the same
    collaborator calls as a note-on for n+36, toggling the pad found
    there. *)
Theorem low_note_aliases_bank_A
    (zynseq : Zynseq.t) (n channel velocity : Z) (self : driver) :
  0 <= n <= 15 ->
  let col := n mod 4 in
  let row := 3 - n / 4 in
  let pad := Zynseq.get_pad_from_xy zynseq col row in
  get_note_xy n = Ok (col, row, ""%string) /\
  0 <= col <= 3 /\ 0 <= row <= 3 /\
  get_note_xy (n + 36) = Ok (col, row, "A"%string) /\
  calls (note_on zynseq n channel velocity self)
  = calls (note_on zynseq (n + 36) channel velocity self) /\
  (0 <= pad ->
   calls (note_on zynseq n channel velocity self)
   = [GetPadFromXY col row; TogglePlayState (Zynseq.bank zynseq) pad]).
Proof.
  intros Hn col row pad.
  assert (H0 : get_note_xy n = Ok (col, row, ""%string))
    by (apply get_note_xy_out_of_range; lia).
  assert (HA : get_note_xy (n + 36) = Ok (col, row, "A"%string)).
  { rewrite (get_note_xy_in_range (n + 36) 36 "A") by (left; repeat split; lia).
    subst col row. replace (n + 36 - 36) with n by lia. reflexivity. }
  split; [exact H0|].
  split; [pose proof (Z.mod_pos_bound n 4); subst col; lia|].
  split.
  { subst row. assert (0 <= n / 4 <= 3); [|lia].
    split; [apply Z.div_pos; lia|].
    apply Z.lt_succ_r, Z.div_lt_upper_bound; lia. }
  split; [exact HA|].
  rewrite (note_on_eq zynseq n _ _ _ _ _ _ H0),
          (note_on_eq zynseq (n + 36) _ _ _ _ _ _ HA).
  cbv zeta. fold pad. split.
  - destruct (pad >=? 0); reflexivity.
  - intros Hpad. settle_tests. reflexivity.
Qed.

Lemma low_note_aliases_bank_A_witness :
  get_note_xy 5 = Ok (1, 2, ""%string) /\
  get_note_xy 41 = Ok (1, 2, "A"%string) /\
  calls (note_on grid4 5 9 100 fresh) = [GetPadFromXY 1 2; TogglePlayState 1 6].
Proof.
  destruct (low_note_aliases_bank_A grid4 5 9 100 fresh)
    as (H1 & _ & _ & H2 & _ & H3); [lia|].
  split; [exact H1|]. split; [exact H2|].
  apply H3. vm_compute. discriminate.
Defined.

(** C9. A note-on whose decoded coordinate has no pad (the lookup answers a
    negative index) calls togglePlayState not at all; togglePlayState is
    called only with the non-negative index the lookup returned. *)
Theorem note_on_skips_unassigned_pad
    (zynseq : Zynseq.t) (note channel velocity : Z) (self : driver)
    (col row : Z) (name : string) :
  get_note_xy note = Ok (col, row, name) ->
  let pad := Zynseq.get_pad_from_xy zynseq col row in
  let run := note_on zynseq note channel velocity self in
  (pad < 0 -> run = (Ok None, {| currentNotePressed := note |},
                     [GetPadFromXY col row])) /\
  (forall b p, In (TogglePlayState b p) (calls run) ->
               0 <= p /\ p = pad /\ b = Zynseq.bank zynseq) /\
  (0 <= pad -> calls run
               = [GetPadFromXY col row;
                  TogglePlayState (Zynseq.bank zynseq) pad]).
Proof.
  intros H pad run. subst run.
  rewrite (note_on_eq zynseq note _ _ _ _ _ _ H). cbv zeta. fold pad.
  split; [|split].
  - intros Hneg. settle_tests. reflexivity.
  - intros b p Hin.
    destruct (Z.geb_spec pad 0) as [Hge|Hlt]; cbn in Hin.
    + destruct Hin as [Hin|[Hin|[]]]; [discriminate|].
      inversion Hin. repeat split; lia.
    + destruct Hin as [Hin|[]]. discriminate.
  - intros Hpad. settle_tests. reflexivity.
Qed.

Lemma note_on_skips_unassigned_pad_witness :
  note_on empty_bank 40 9 100 fresh
  = (Ok None, {| currentNotePressed := 40 |}, [GetPadFromXY 0 2]).
Proof.
  refine (proj1 (note_on_skips_unassigned_pad empty_bank 40 9 100 fresh
                   0 2 "A"%string _) _).
  - reflexivity.
  - cbn. lia.
Defined.

(** ** The pressure tracker *)

(** C1 (what the code does instead).  After note-on(40), note-off(40), a
    full-pressure event still launches a scene: the sentinel -1 is used as
    the first pad index, so setPlayState is called for pads -1, 0, 1
    and 2. *)
Theorem pressure_while_idle_launches_scene (zynseq : Zynseq.t) :
  let bank := Zynseq.bank zynseq in
  let pad := Zynseq.get_pad_from_xy zynseq 0 2 in
  deliver zynseq [ev_note_on 9 40 100; ev_note_off 9 40; ev_pressure 9 127]
    fresh
  = (Ok tt, {| currentNotePressed := -1 |},
     GetPadFromXY 0 2
       :: (if pad >=? 0 then [TogglePlayState bank pad] else [])
       ++ [SetPlayState bank (-1) 0; SetPlayState bank 0 0;
           SetPlayState bank 1 0; SetPlayState bank 2 0]).
Proof.
  cbv zeta. unfold deliver, ev_note_on, ev_note_off, ev_pressure.
  unfold bind at 1. rewrite midi_event_eq.
  change (evtype_of (144 + 9) =? 9) with true. cbv iota zeta.
  unfold bind at 1.
  rewrite (note_on_eq zynseq _ _ _ _ 0 2 "A"%string) by reflexivity.
  cbv zeta. destruct (_ >=? 0); reflexivity.
Qed.

(** C2. A channel-pressure event with value v arriving while the last
    pressed note is n makes, when v = 127, exactly the four calls
    setPlayState(bank, n, 0), (bank, n+1, 0), (bank, n+2, 0),
    (bank, n+3, 0) in that order, and no collaborator call at all when
    v <> 127; the held note is left as it was. *)
Theorem pressure_launches_scene
    (zynseq : Zynseq.t) (status data1 data2 : Z) (self : driver) :
  evtype_of status = 0xD ->
  let bank := Zynseq.bank zynseq in
  let n := currentNotePressed self in
  let v := Z.land data1 0x7F in
  midi_event zynseq [status; data1; data2] self
  = (Ok None, self,
     if v =? 127
     then [SetPlayState bank n 0; SetPlayState bank (n + 1) 0;
           SetPlayState bank (n + 2) 0; SetPlayState bank (n + 3) 0]
     else []) /\
  pressureChange zynseq (Z.land status 0x0F) v self
  = midi_event zynseq [status; data1; data2] self.
Proof.
  intros Hty bank n v. subst bank n v.
  rewrite midi_event_eq. cbv zeta. rewrite Hty. cbn [Z.eqb Pos.eqb].
  rewrite pressureChange_eq. split; reflexivity.
Qed.

Lemma pressure_launches_scene_witness :
  midi_event grid4 (ev_pressure 9 127) {| currentNotePressed := 40 |}
  = (Ok None, {| currentNotePressed := 40 |},
     [SetPlayState 1 40 0; SetPlayState 1 41 0;
      SetPlayState 1 42 0; SetPlayState 1 43 0]) /\
  midi_event grid4 (ev_pressure 9 100) {| currentNotePressed := 40 |}
  = (Ok None, {| currentNotePressed := 40 |}, []).
Proof.
  split.
  - apply (proj1 (pressure_launches_scene grid4 (0xD0 + 9) 127 0
                    {| currentNotePressed := 40 |} eq_refl)).
  - apply (proj1 (pressure_launches_scene grid4 (0xD0 + 9) 100 0
                    {| currentNotePressed := 40 |} eq_refl)).
Defined.

(** C10. Through the dispatcher, every note-on(n) leaves n as the last
    pressed note, whatever was held before, whether or not n is in a pad
    range and whether or not a pad was found; every note-off leaves the
    sentinel -1 whichever note it names; an event of any other type leaves
    the last pressed note as it was. *)
Theorem last_pressed_note_transitions
    (zynseq : Zynseq.t) (status data1 data2 : Z) (self : driver) :
  let after := final (midi_event zynseq [status; data1; data2] self) in
  (evtype_of status = 0x9 -> currentNotePressed after = Z.land data1 0x7F) /\
  (evtype_of status = 0x8 -> currentNotePressed after = -1) /\
  (evtype_of status <> 0x9 -> evtype_of status <> 0x8 -> after = self) /\
  (forall n channel velocity,
      currentNotePressed (final (note_on zynseq n channel velocity self)) = n) /\
  (forall n channel,
      currentNotePressed (final (note_off n channel self)) = -1).
Proof.
  cbv zeta. rewrite midi_event_eq. cbv zeta.
  assert (Hon : forall n channel velocity,
             final (note_on zynseq n channel velocity self)
             = {| currentNotePressed := n |}).
  { intros n c v. destruct (note_on_final zynseq n c v self) as (r & _ & Hf).
    exact Hf. }
  split; [|split; [|split; [|split]]].
  - intros ->. cbn [Z.eqb Pos.eqb].
    specialize (Hon (Z.land data1 127) (Z.land status 15) (Z.land data2 127)).
    unfold final, bind in *.
    destruct (note_on _ _ _ _ _) as [[[r|e] self1] t1]; cbn in *;
      subst self1; reflexivity.
  - intros ->. reflexivity.
  - intros H9 H8. settle_tests.
    rewrite cc_change_masked, pressureChange_eq.
    repeat match goal with
           | |- context [if ?b then _ else _] => destruct b
           end; reflexivity.
  - intros n c v. rewrite Hon. reflexivity.
  - intros n c. reflexivity.
Qed.

Lemma last_pressed_note_transitions_witness :
  currentNotePressed
    (final (midi_event empty_bank (ev_note_on 9 100 64)
              {| currentNotePressed := 40 |})) = 100 /\
  currentNotePressed
    (final (midi_event empty_bank (ev_note_off 9 7)
              {| currentNotePressed := 40 |})) = -1 /\
  final (midi_event empty_bank (ev_cc 9 16 64) {| currentNotePressed := 40 |})
  = {| currentNotePressed := 40 |}.
Proof.
  split; [|split].
  - apply (proj1 (last_pressed_note_transitions empty_bank (0x90 + 9) 100 64
                    {| currentNotePressed := 40 |})). reflexivity.
  - apply (proj1 (proj2 (last_pressed_note_transitions empty_bank (0x80 + 9) 7 0
                    {| currentNotePressed := 40 |}))). reflexivity.
  - apply (proj1 (proj2 (proj2 (last_pressed_note_transitions empty_bank
                    (0xB0 + 9) 16 64 {| currentNotePressed := 40 |}))));
      vm_compute; discriminate.
Defined.

(** ** The CC decoder *)

Lemma cc_mixer_channel_table (ccnum : Z) :
  cc_mixer_channel ccnum
  = match dial_channel_spec ccnum with Some ch => ch | None => -1 end.
Proof.
  assert (H : ccnum < 3 \/ ccnum = 3 \/ 4 <= ccnum <= 8 \/ ccnum = 9 \/
              10 <= ccnum <= 11 \/ ccnum = 12 \/ ccnum = 13 \/ ccnum = 14 \/
              ccnum = 15 \/ 16 <= ccnum <= 21 \/ 22 <= ccnum <= 27 \/
              27 < ccnum) by lia.
  unfold cc_mixer_channel, dial_channel_spec; unfold_consts.
  repeat match goal with H : _ \/ _ |- _ => destruct H end;
    subst; try reflexivity; settle_tests; reflexivity.
Qed.

Lemma dial_channel_spec_nonneg (ccnum ch : Z) :
  dial_channel_spec ccnum = Some ch -> 0 <= ch.
Proof.
  unfold dial_channel_spec, between.
  repeat match goal with
         | |- context [if ?a =? ?b then _ else _] => destruct (Z.eqb_spec a b)
         | |- context [?a <=? ?b] => destruct (Z.leb_spec a b)
         end; cbn [andb]; intros Hs; inversion Hs; lia.
Qed.


(** C4. The CC decoder resolves a mixer channel exactly when the CC number
    is 3, 9, 12, 13, 14 or 15 (channels 0, 1, 2, 10, 11, 12), or in [16,21]
    (channel ccnum-16), or in [22,27] (channel ccnum-22), and then, for a
    CC value of the byte domain 0..127, calls the mixer for that channel;
    any other CC number, such as 4-8, 10 and 11 inside bank A's 3-15 range,
    resolves no channel and causes no mixer call. *)
Theorem cc_change_resolves_dial_table (ccnum ccval : Z) (self : driver) :
  (cc_mixer_channel ccnum > -1 <->
   ccnum = 3 \/ ccnum = 9 \/ ccnum = 12 \/ 13 <= ccnum <= 15 \/
   16 <= ccnum <= 21 \/ 22 <= ccnum <= 27) /\
  cc_mixer_channel ccnum
  = match dial_channel_spec ccnum with Some ch => ch | None => -1 end /\
  match dial_channel_spec ccnum with
  | Some ch =>
      0 <= ccval <= 127 ->
      cc_change ccnum ccval self
      = (Ok None, self, [SetLevel ch (level_of ccval)])
  | None => cc_change ccnum ccval self = (Ok None, self, [])
  end /\
  (4 <= ccnum <= 8 \/ ccnum = 10 \/ ccnum = 11 ->
   cc_mixer_channel ccnum = -1 /\ calls (cc_change ccnum ccval self) = []).
Proof.
  pose proof (cc_mixer_channel_table ccnum) as Htab.
  pose proof (dial_channel_spec_nonneg ccnum) as Hnn.
  assert (Hdom : dial_channel_spec ccnum <> None <->
                 ccnum = 3 \/ ccnum = 9 \/ ccnum = 12 \/ 13 <= ccnum <= 15 \/
                 16 <= ccnum <= 21 \/ 22 <= ccnum <= 27).
  { unfold dial_channel_spec, between.
    repeat match goal with
           | |- context [if ?a =? ?b then _ else _] => destruct (Z.eqb_spec a b)
           | |- context [?a <=? ?b] => destruct (Z.leb_spec a b)
           end; cbn [andb]; split; intros Hs; try congruence; try lia;
      exfalso; apply Hs; reflexivity. }
  assert (Hrun : match dial_channel_spec ccnum with
                 | Some ch =>
                     0 <= ccval <= 127 ->
                     cc_change ccnum ccval self
                     = (Ok None, self, [SetLevel ch (level_of ccval)])
                 | None => cc_change ccnum ccval self = (Ok None, self, [])
                 end).
  { destruct (dial_channel_spec ccnum) as [ch|].
    - intros Hval. specialize (Hnn ch eq_refl).
      rewrite (cc_change_byte ccnum ccval self Hval), Htab.
      settle_tests. reflexivity.
    - rewrite cc_change_eq, Htab. reflexivity. }
  split; [|split; [exact Htab | split; [exact Hrun|]]].
  - rewrite <- Hdom, Htab.
    destruct (dial_channel_spec ccnum) as [ch|].
    + specialize (Hnn ch eq_refl). split; [congruence | lia].
    + split; [lia | congruence].
  - intros Hgap. rewrite Htab.
    destruct (dial_channel_spec ccnum) as [ch|];
      [|rewrite Hrun; split; reflexivity].
    exfalso. assert (Some ch <> None) as Hs by congruence.
    apply Hdom in Hs. lia.
Qed.

Lemma cc_change_resolves_dial_table_witness :
  cc_mixer_channel 5 = -1 /\ calls (cc_change 5 64 fresh) = [] /\
  cc_mixer_channel 13 > -1.
Proof.
  pose proof (cc_change_resolves_dial_table 5 64 fresh) as (_ & _ & _ & H).
  pose proof (cc_change_resolves_dial_table 13 64 fresh) as (H13 & _).
  destruct H as (H1 & H2); [left; lia|].
  split; [exact H1|]. split; [exact H2|].
  apply H13. right. right. right. left. lia.
Defined.

(** C7. For every CC number outside the three dial ranges (below 3 or above
    27, such as 0, 1, 2, 28 and 100) the mixer channel stays at the
    sentinel -1 and cc_change makes no call: it returns normally having
    done nothing. *)
Theorem cc_change_outside_ranges_is_noop (ccnum ccval : Z) (self : driver) :
  ccnum < 3 \/ 27 < ccnum ->
  cc_mixer_channel ccnum = -1 /\
  cc_change ccnum ccval self = (Ok None, self, []).
Proof.
  intros H.
  assert (Hch : cc_mixer_channel ccnum = -1).
  { unfold cc_mixer_channel; unfold_consts.
    destruct H; settle_tests; cbn [andb]; rewrite ?andb_false_r; reflexivity. }
  split; [exact Hch|]. rewrite cc_change_eq, Hch. reflexivity.
Qed.

Lemma cc_change_outside_ranges_is_noop_witness :
  calls (cc_change 0 64 fresh) = [] /\ calls (cc_change 1 64 fresh) = [] /\
  calls (cc_change 2 64 fresh) = [] /\ calls (cc_change 28 64 fresh) = [] /\
  calls (cc_change 100 64 fresh) = [].
Proof.
  pose proof (fun n H => f_equal calls
                (proj2 (cc_change_outside_ranges_is_noop n 64 fresh H))) as noop.
  split; [|split; [|split; [|split]]].
  - apply (noop 0). left. lia.
  - apply (noop 1). left. lia.
  - apply (noop 2). left. lia.
  - apply (noop 28). right. lia.
  - apply (noop 100). right. lia.
Defined.

(** C8. Whenever cc_change resolves a mixer channel, for every ccval in
    [0,127] it calls set_level exactly once, with level ccval / 127; that
    level lies in [0,1] and is the double nearest to the exact quotient;
    it is exactly 1.0 at ccval = 127, exactly 0.0 at ccval = 0, and 0.504
    to three decimals at ccval = 64. *)
Theorem cc_change_level_normalized (ccnum ccval : Z) (self : driver) :
  cc_mixer_channel ccnum > -1 -> 0 <= ccval <= 127 ->
  truediv ccval MAX_DIAL = Ok (level_of ccval) /\
  cc_change ccnum ccval self
  = (Ok None, self, [SetLevel (cc_mixer_channel ccnum) (level_of ccval)]) /\
  (0 <=? level_of ccval)%float = true /\
  (level_of ccval <=? 1)%float = true /\
  (Qabs (Q_of_float (level_of ccval) - (ccval # 127)) <= 1 # 2 ^ 54)%Q /\
  level_of 127 = 1%float /\
  level_of 0 = 0%float /\
  (Qabs (Q_of_float (level_of 64) - (504 # 1000)) <= 5 # 10000)%Q.
Proof.
  intros Hch Hval.
  pose proof (level_of_ok ccval Hval) as Hok. unfold level_ok in Hok.
  apply andb_prop in Hok as [Hok Hq]. apply andb_prop in Hok as [H0 H1].
  apply Qle_bool_iff in Hq.
  split; [exact (truediv_byte ccval Hval)|].
  split; [rewrite (cc_change_byte ccnum ccval self Hval); settle_tests;
          reflexivity|].
  repeat (split; [assumption|]).
  split; [vm_compute; reflexivity|]. split; [vm_compute; reflexivity|].
  apply Qle_bool_iff. vm_compute. reflexivity.
Qed.

Lemma cc_change_level_normalized_witness :
  cc_change 16 127 fresh = (Ok None, fresh, [SetLevel 0 1%float]) /\
  cc_change 3 0 fresh = (Ok None, fresh, [SetLevel 0 0%float]) /\
  (level_of 64 <=? 1)%float = true.
Proof.
  split; [|split].
  - apply (proj1 (proj2 (cc_change_level_normalized 16 127 fresh eq_refl
                           ltac:(lia)))).
  - apply (proj1 (proj2 (cc_change_level_normalized 3 0 fresh eq_refl
                           ltac:(lia)))).
  - apply (proj1 (proj2 (proj2 (proj2
             (cc_change_level_normalized 16 64 fresh eq_refl ltac:(lia)))))).
Defined.

(** ** The pressure tracker as a two-state machine *)

Section StateMachine.

Variable zynseq : Zynseq.t.

(** One event moves the stored note as [transition] moves the state. *)
Lemma midi_event_simulates (st : pad_state) (status data1 data2 : Z)
      (self : driver) :
  currentNotePressed self = encode st ->
  exists t,
    midi_event zynseq [status; data1; data2] self
    = (Ok None,
       {| currentNotePressed :=
            encode (transition st [status; data1; data2]) |}, t).
Proof.
  intros Hst. destruct self as [held]. cbn in Hst. subst held.
  rewrite midi_event_eq. cbv zeta. unfold transition.
  destruct (evtype_of status =? 9).
  - destruct (get_note_xy_total (Z.land data1 127))
      as (col & row & name & Hxy).
    unfold bind. rewrite (note_on_eq zynseq _ _ _ _ _ _ _ Hxy). cbv zeta.
    destruct (_ >=? 0); cbn; eauto.
  - destruct (evtype_of status =? 8); [cbn; eauto|].
    rewrite cc_change_masked, pressureChange_eq.
    repeat match goal with
           | |- context [if ?b then _ else _] => destruct b
           end; eauto.
Qed.

(** Delivering any run of three-byte events never raises, and the stored
    note afterwards is the encoding of the machine's state. *)
Lemma deliver_simulates (evs : list (list Z)) :
  Forall (fun ev => List.length ev = 3%nat) evs ->
  forall (st : pad_state) (self : driver),
    currentNotePressed self = encode st ->
    exists t,
      deliver zynseq evs self
      = (Ok tt,
         {| currentNotePressed := encode (fold_left transition evs st) |},
         t).
Proof.
  induction 1 as [|ev evs Hlen _ IH]; intros st self Hst.
  - destruct self as [held]. cbn in *. subst held.
    exists []. reflexivity.
  - destruct ev as [|status [|data1 [|data2 [|]]]]; try discriminate Hlen.
    destruct (midi_event_simulates st status data1 data2 self Hst)
      as (t1 & H1).
    destruct (IH (transition st [status; data1; data2])
                 {| currentNotePressed :=
                      encode (transition st [status; data1; data2]) |}
                 eq_refl) as (t2 & H2).
    exists (t1 ++ t2).
    cbn [deliver fold_left]. unfold bind at 1. rewrite H1, H2. reflexivity.
Qed.

End StateMachine.

Example deliver_idle_again :
  fold_left transition
    [ev_note_on 9 40 100; ev_note_on 9 44 100; ev_cc 9 16 3; ev_note_off 9 40]
    Idle = Idle.
Proof. reflexivity. Qed.

(** * Further properties of the dispatcher *)


Lemma evtype_of_low_byte (status : Z) :
  evtype_of (Z.land status 0xFF) = evtype_of status.
Proof.
  unfold evtype_of. rewrite Z.shiftr_land, <- Z.land_assoc. reflexivity.
Qed.

Lemma evtype_of_range (status : Z) : 0 <= evtype_of status <= 15.
Proof.
  unfold evtype_of.
  change (Z.land ?x 0x0F) with (Z.land x (Z.ones 4)).
  rewrite Z.land_ones by lia. change (2 ^ 4) with 16. pose proof (Z.mod_pos_bound (Z.shiftr status 4) 16).
  lia.
Qed.

(** The handlers never read [channel], and [note_on] never reads
    [velocity]. *)
Lemma note_on_ignores_channel_velocity
      (zynseq : Zynseq.t) (note c1 v1 c2 v2 : Z) :
  note_on zynseq note c1 v1 = note_on zynseq note c2 v2.
Proof. reflexivity. Qed.

(** X1. A three-byte message whose type nibble is none of 0x8, 0x9, 0xB and
    0xD (polyphonic aftertouch, program change, pitch bend, system
    messages, or a byte without the status bit) is dropped: the dispatcher
    returns None, makes no collaborator call and leaves the held note
    alone. *)
Theorem midi_event_ignores_other_types
    (zynseq : Zynseq.t) (status data1 data2 : Z) (self : driver) :
  evtype_of status <> 0x8 -> evtype_of status <> 0x9 ->
  evtype_of status <> 0xB -> evtype_of status <> 0xD ->
  midi_event zynseq [status; data1; data2] self = (Ok None, self, []).
Proof.
  intros H8 H9 HB HD. rewrite midi_event_eq. cbv zeta.
  settle_tests. reflexivity.
Qed.

Lemma midi_event_ignores_other_types_witness :
  midi_event grid4 [0xE3; 0; 64] {| currentNotePressed := 40 |}
  = (Ok None, {| currentNotePressed := 40 |}, []).
Proof.
  apply (midi_event_ignores_other_types grid4 0xE3 0 64);
    vm_compute; discriminate.
Defined.

(** X2. A message of fewer than three elements makes the dispatcher raise
    IndexError before it looks at the type: nothing is called and the held
    note is untouched.  This includes the two-byte form of channel
    pressure, although that handler only needs the first data byte. *)
Theorem midi_event_short_message_raises
    (zynseq : Zynseq.t) (ev : list Z) (self : driver) :
  (List.length ev < 3)%nat ->
  midi_event zynseq ev self = (Raise IndexError, self, []).
Proof.
  intros Hlen.
  destruct ev as [|b0 [|b1 [|b2 rest]]]; cbn in Hlen; try lia; reflexivity.
Qed.

Lemma midi_event_short_message_raises_witness :
  midi_event grid4 [0xD9; 127] {| currentNotePressed := 40 |}
  = (Raise IndexError, {| currentNotePressed := 40 |}, []).
Proof.
  apply (midi_event_short_message_raises grid4 [0xD9; 127]). cbn. lia.
Defined.

(** Elements after the third are never read: a longer message is
    handled exactly as its first three elements. *)
Lemma midi_event_reads_three_elements
    (zynseq : Zynseq.t) (b0 b1 b2 : Z) (rest : list Z) (self : driver) :
  midi_event zynseq (b0 :: b1 :: b2 :: rest) self
  = midi_event zynseq [b0; b1; b2] self.
Proof. reflexivity. Qed.

(** X3. The dispatcher does not filter by MIDI channel: two status bytes
    with the same type nibble are handled identically, whatever their
    channel nibbles. *)
Theorem midi_event_channel_blind
    (zynseq : Zynseq.t) (status1 status2 data1 data2 : Z) (self : driver) :
  evtype_of status1 = evtype_of status2 ->
  midi_event zynseq [status1; data1; data2] self
  = midi_event zynseq [status2; data1; data2] self.
Proof.
  intros Hty. rewrite !midi_event_eq. cbv zeta. rewrite Hty.
  rewrite !pressureChange_eq.
  rewrite (note_on_ignores_channel_velocity zynseq _ (Z.land status1 15) _
             (Z.land status2 15) (Z.land data2 127)).
  reflexivity.
Qed.

Lemma midi_event_channel_blind_witness :
  midi_event grid4 (ev_note_on 0 40 100) fresh
  = midi_event grid4 (ev_note_on 9 40 100) fresh.
Proof.
  apply (midi_event_channel_blind grid4 (0x90 + 0) (0x90 + 9) 40 100 fresh).
  reflexivity.
Defined.

(** X4. A note-on is handled the same whatever its velocity: in
    particular a note-on with velocity 0 is not taken as a note-off, it
    queries the pad lookup and holds the note like any other note-on. *)
Theorem note_on_velocity_blind
    (zynseq : Zynseq.t) (status data1 data2 : Z) (self : driver) :
  evtype_of status = 0x9 ->
  midi_event zynseq [status; data1; data2] self
  = midi_event zynseq [status; data1; 0] self /\
  final (midi_event zynseq [status; data1; 0] self)
  = {| currentNotePressed := Z.land data1 0x7F |} /\
  exists col row, hd_error (calls (midi_event zynseq [status; data1; 0] self))
                  = Some (GetPadFromXY col row).
Proof.
  intros Hty. rewrite !midi_event_eq. cbv zeta. rewrite Hty.
  cbn [Z.eqb Pos.eqb].
  rewrite (note_on_ignores_channel_velocity zynseq _ _ (Z.land data2 127)
             (Z.land status 15) (Z.land 0 127)).
  split; [reflexivity|].
  destruct (get_note_xy_total (Z.land data1 127)) as (col & row & name & Hxy).
  unfold bind. rewrite (note_on_eq zynseq _ _ _ _ _ _ _ Hxy). cbv zeta.
  destruct (_ >=? 0); cbn; eauto.
Qed.

Lemma note_on_velocity_blind_witness :
  final (midi_event grid4 (ev_note_on 9 40 0) fresh)
  = {| currentNotePressed := 40 |}.
Proof.
  apply (proj1 (proj2 (note_on_velocity_blind grid4 (0x90 + 9) 40 0 fresh
                         eq_refl))).
Defined.

(** X5. Only the low byte of the status and the low seven bits of the two
    data bytes matter: masking them beforehand changes nothing. *)
Theorem midi_event_masks_bytes
    (zynseq : Zynseq.t) (status data1 data2 : Z) (self : driver) :
  midi_event zynseq [status; data1; data2] self
  = midi_event zynseq
      [Z.land status 0xFF; Z.land data1 0x7F; Z.land data2 0x7F] self.
Proof.
  rewrite !midi_event_eq. cbv zeta.
  rewrite evtype_of_low_byte, !land_127_idem, !pressureChange_eq.
  rewrite (note_on_ignores_channel_velocity zynseq _ (Z.land status 15) _
             (Z.land (Z.land status 255) 15) (Z.land data2 127)).
  reflexivity.
Qed.

(** * Further properties of the note decoder *)

(** Split an equation between two returned triples into its components,
    without reducing them. *)
Ltac ok_inj H :=
  match type of H with
  | Ok (?a, ?b, ?c) = Ok (?x, ?y, ?z) =>
      assert (a = x) by congruence;
      assert (b = y) by congruence;
      assert (c = z) by congruence;
      clear H
  end.

(** X6. Whatever the note, the decoded column is in [0,3]; the row is in
    [0,3], so that the coordinate lies on the 4x4 grid, exactly when the
    note is in [0,15] or in a pad range [36,83]; and the bank is empty
    exactly when the note is outside [36,83]. *)
Theorem get_note_xy_on_grid (note col row : Z) (name : string) :
  get_note_xy note = Ok (col, row, name) ->
  0 <= col <= 3 /\
  (0 <= row <= 3 <-> 0 <= note <= 15 \/ 36 <= note <= 83) /\
  (name = ""%string <-> note < 36 \/ 83 < note).
Proof.
  intros H.
  assert (Hcases : note < 36 \/ 36 <= note <= 51 \/ 52 <= note <= 67 \/
                   68 <= note <= 83 \/ 83 < note) by lia.
  destruct Hcases as [Hc|[Hc|[Hc|[Hc|Hc]]]].
  - rewrite get_note_xy_out_of_range in H by lia. ok_inj H; subst col row name.
    pose proof (Z.mod_pos_bound note 4 ltac:(lia)).
    pose proof (Z.div_mod note 4 ltac:(lia)). split; [lia|]. split; [split; intros; lia|].
    split; intros; [lia | reflexivity].
  - rewrite (get_note_xy_in_range note 36 "A") in H by tauto.
    ok_inj H; subst col row name.
    pose proof (Z.mod_pos_bound (note - 36) 4 ltac:(lia)).
    pose proof (Z.div_mod (note - 36) 4 ltac:(lia)). split; [lia|]. split; [split; intros; lia|].
    split; intros; [discriminate | lia].
  - rewrite (get_note_xy_in_range note 52 "B") in H by tauto.
    ok_inj H; subst col row name.
    pose proof (Z.mod_pos_bound (note - 52) 4 ltac:(lia)).
    pose proof (Z.div_mod (note - 52) 4 ltac:(lia)). split; [lia|]. split; [split; intros; lia|].
    split; intros; [discriminate | lia].
  - rewrite (get_note_xy_in_range note 68 "C") in H by tauto.
    ok_inj H; subst col row name.
    pose proof (Z.mod_pos_bound (note - 68) 4 ltac:(lia)).
    pose proof (Z.div_mod (note - 68) 4 ltac:(lia)). split; [lia|]. split; [split; intros; lia|].
    split; intros; [discriminate | lia].
  - rewrite get_note_xy_out_of_range in H by lia. ok_inj H; subst col row name.
    pose proof (Z.mod_pos_bound note 4 ltac:(lia)).
    pose proof (Z.div_mod note 4 ltac:(lia)). split; [lia|]. split; [split; intros; lia|].
    split; intros; [lia | reflexivity].
Qed.

Lemma get_note_xy_on_grid_witness :
  0 <= 0 <= 3 /\
  (0 <= -2 <= 3 <-> 0 <= 20 <= 15 \/ 36 <= 20 <= 83) /\
  (""%string = ""%string <-> 20 < 36 \/ 83 < 20).
Proof.
  apply (get_note_xy_on_grid 20 0 (-2) ""%string). reflexivity.
Defined.

(** The decoder on a pad note, with the offset recovered from the
    coordinate: [note = start + 4 * (3 - row) + col]. *)
Lemma get_note_xy_pad_note (note : Z) :
  36 <= note <= 83 ->
  exists start col row name,
    get_note_xy note = Ok (col, row, name) /\
    note = start + 4 * (3 - row) + col /\ 0 <= col <= 3 /\
    ((start = 36 /\ name = "A"%string) \/ (start = 52 /\ name = "B"%string) \/
     (start = 68 /\ name = "C"%string)).
Proof.
  intros H.
  assert (Hcases : 36 <= note <= 51 \/ 52 <= note <= 67 \/ 68 <= note <= 83)
    by lia.
  destruct Hcases as [Hc|[Hc|Hc]];
    [exists 36, ((note - 36) mod 4), (3 - (note - 36) / 4), "A"%string;
     pose proof (Z.mod_pos_bound (note - 36) 4 ltac:(lia));
     pose proof (Z.div_mod (note - 36) 4 ltac:(lia))
    |exists 52, ((note - 52) mod 4), (3 - (note - 52) / 4), "B"%string;
     pose proof (Z.mod_pos_bound (note - 52) 4 ltac:(lia));
     pose proof (Z.div_mod (note - 52) 4 ltac:(lia))
    |exists 68, ((note - 68) mod 4), (3 - (note - 68) / 4), "C"%string;
     pose proof (Z.mod_pos_bound (note - 68) 4 ltac:(lia));
     pose proof (Z.div_mod (note - 68) 4 ltac:(lia))];
    (split; [apply get_note_xy_in_range; tauto|]);
    (split; [lia|]); (split; [lia|]); tauto.
Qed.

(** X7. On the pad notes [36,83] the decoder is one-to-one: two notes with
    the same column, row and bank are the same note. *)
Theorem get_note_xy_injective (n m : Z) :
  36 <= n <= 83 -> 36 <= m <= 83 ->
  get_note_xy n = get_note_xy m -> n = m.
Proof.
  intros Hn Hm Heq.
  destruct (get_note_xy_pad_note n Hn)
    as (sn & cn & rn & bn & Hxn & Hnote_n & _ & Hbn).
  destruct (get_note_xy_pad_note m Hm)
    as (sm & cm & rm & bm & Hxm & Hnote_m & _ & Hbm).
  rewrite Hxn, Hxm in Heq. inversion Heq; subst cn rn bn.
  assert (sn = sm).
  { destruct Hbn as [[? ?]|[[? ?]|[? ?]]], Hbm as [[? ?]|[[? ?]|[? ?]]];
      subst; try reflexivity; discriminate. }
  lia.
Qed.

Lemma get_note_xy_injective_witness : 36 + 5 = 41.
Proof.
  apply (get_note_xy_injective (36 + 5) 41); [lia | lia | reflexivity].
Defined.

(** X8. The decoded bank plays no part in a note-on: for a pad note n of
    bank A or B, the note sixteen above it (the same pad of the next bank)
    decodes to the same column and row and makes the same collaborator
    calls. *)
Theorem note_on_bank_blind
    (zynseq : Zynseq.t) (n channel velocity : Z) (self : driver) :
  36 <= n <= 67 ->
  exists col row name1 name2,
    get_note_xy n = Ok (col, row, name1) /\
    get_note_xy (n + 16) = Ok (col, row, name2) /\ name1 <> name2 /\
    calls (note_on zynseq n channel velocity self)
    = calls (note_on zynseq (n + 16) channel velocity self).
Proof.
  intros Hn.
  assert (Hcases : 36 <= n <= 51 \/ 52 <= n <= 67) by lia.
  destruct Hcases as [Hc|Hc].
  - exists ((n - 36) mod 4), (3 - (n - 36) / 4), "A"%string, "B"%string.
    assert (H1 : get_note_xy n
                 = Ok ((n - 36) mod 4, 3 - (n - 36) / 4, "A"%string))
      by (apply get_note_xy_in_range; tauto).
    assert (H2 : get_note_xy (n + 16)
                 = Ok ((n - 36) mod 4, 3 - (n - 36) / 4, "B"%string)).
    { rewrite (get_note_xy_in_range (n + 16) 52 "B")
        by (right; left; repeat split; lia).
      replace (n + 16 - 52) with (n - 36) by lia. reflexivity. }
    split; [exact H1|]. split; [exact H2|]. split; [discriminate|].
    rewrite (note_on_eq zynseq _ _ _ _ _ _ _ H1),
            (note_on_eq zynseq _ _ _ _ _ _ _ H2).
    cbv zeta. destruct (_ >=? 0); reflexivity.
  - exists ((n - 52) mod 4), (3 - (n - 52) / 4), "B"%string, "C"%string.
    assert (H1 : get_note_xy n
                 = Ok ((n - 52) mod 4, 3 - (n - 52) / 4, "B"%string))
      by (apply get_note_xy_in_range; tauto).
    assert (H2 : get_note_xy (n + 16)
                 = Ok ((n - 52) mod 4, 3 - (n - 52) / 4, "C"%string)).
    { rewrite (get_note_xy_in_range (n + 16) 68 "C")
        by (right; right; repeat split; lia).
      replace (n + 16 - 68) with (n - 52) by lia. reflexivity. }
    split; [exact H1|]. split; [exact H2|]. split; [discriminate|].
    rewrite (note_on_eq zynseq _ _ _ _ _ _ _ H1),
            (note_on_eq zynseq _ _ _ _ _ _ _ H2).
    cbv zeta. destruct (_ >=? 0); reflexivity.
Qed.

Lemma note_on_bank_blind_witness :
  exists col row name1 name2,
    get_note_xy 40 = Ok (col, row, name1) /\
    get_note_xy (40 + 16) = Ok (col, row, name2) /\ name1 <> name2 /\
    calls (note_on grid4 40 9 100 fresh)
    = calls (note_on grid4 (40 + 16) 9 100 fresh).
Proof.
  apply (note_on_bank_blind grid4 40 9 100 fresh). lia.
Defined.

(** * Further properties of the CC decoder *)

(** The values the local [mixer_channel] can end with. *)
Lemma cc_mixer_channel_cases (ccnum : Z) :
  cc_mixer_channel ccnum = -1 \/
  0 <= cc_mixer_channel ccnum <= 5 \/
  10 <= cc_mixer_channel ccnum <= 12.
Proof.
  assert (H : ccnum < 3 \/ ccnum = 3 \/ 4 <= ccnum <= 8 \/ ccnum = 9 \/
              10 <= ccnum <= 11 \/ ccnum = 12 \/ ccnum = 13 \/ ccnum = 14 \/
              ccnum = 15 \/ 16 <= ccnum <= 21 \/ 22 <= ccnum <= 27 \/
              27 < ccnum) by lia.
  unfold cc_mixer_channel; unfold_consts.
  repeat match goal with H : _ \/ _ |- _ => destruct H end;
    subst; settle_tests; cbn [andb]; lia.
Qed.

(** X9. Whatever the CC number and value, cc_change calls set_level at
    most once, and only with a channel in 0..5 or 10..12: no dial reaches
    mixer channels 6 to 9 or any channel above 12. *)
Theorem cc_change_channel_range
    (ccnum ccval : Z) (self : driver) (ch : Z) (lv : float) :
  In (SetLevel ch lv) (calls (cc_change ccnum ccval self)) ->
  (0 <= ch <= 5 \/ 10 <= ch <= 12) /\
  calls (cc_change ccnum ccval self) = [SetLevel ch lv].
Proof.
  rewrite cc_change_eq.
  destruct (Z.gtb_spec (cc_mixer_channel ccnum) (-1)) as [Hres|Hres];
    [|cbn; contradiction].
  destruct (truediv ccval MAX_DIAL) as [level|e]; cbn; [|contradiction].
  intros [Hin|[]]. injection Hin as <- <-.
  pose proof (cc_mixer_channel_cases ccnum). split; [lia | reflexivity].
Qed.

Lemma cc_change_channel_range_witness :
  calls (cc_change 15 64 fresh) = [SetLevel 12 (level_of 64)].
Proof.
  apply (proj2 (cc_change_channel_range 15 64 fresh 12 (level_of 64)
                  (or_introl eq_refl))).
Defined.

(** X10. The dials of bank B and bank C drive the same six mixer channels:
    for a bank-B CC number, the CC number six above it (the same dial in
    bank C) behaves the same, and for a CC value of the byte domain 0..127
    both make the one call set_level(ccnum - 16, ccval / 127). *)
Theorem cc_change_banks_B_C_alias (ccnum ccval : Z) (self : driver) :
  16 <= ccnum <= 21 ->
  cc_change ccnum ccval self = cc_change (ccnum + 6) ccval self /\
  (0 <= ccval <= 127 ->
   calls (cc_change ccnum ccval self)
   = [SetLevel (ccnum - 16) (level_of ccval)]).
Proof.
  intros H.
  assert (H1 : cc_mixer_channel ccnum = ccnum - 16).
  { unfold cc_mixer_channel; unfold_consts. settle_tests. reflexivity. }
  assert (H2 : cc_mixer_channel (ccnum + 6) = ccnum - 16).
  { unfold cc_mixer_channel; unfold_consts. settle_tests. cbn [andb]. lia. }
  split.
  - rewrite !cc_change_eq, H1, H2. reflexivity.
  - intros Hval. rewrite (cc_change_byte ccnum ccval self Hval), H1.
    settle_tests. reflexivity.
Qed.

Lemma cc_change_banks_B_C_alias_witness :
  cc_change 18 100 fresh = cc_change (18 + 6) 100 fresh /\
  calls (cc_change 18 100 fresh) = [SetLevel 2 (level_of 100)].
Proof.
  destruct (cc_change_banks_B_C_alias 18 100 fresh ltac:(lia)) as [H1 H2].
  split; [exact H1 | apply H2; lia].
Defined.

(** X11. Whatever three bytes arrive, a set_level call happens only for a
    control-change message, at most once, and always with a channel in
    0..5 or 10..12 and a level between 0.0 and 1.0. *)
Theorem set_level_only_from_cc
    (zynseq : Zynseq.t) (status data1 data2 : Z) (self : driver)
    (ch : Z) (lv : float) :
  In (SetLevel ch lv) (calls (midi_event zynseq [status; data1; data2] self)) ->
  evtype_of status = 0xB /\
  calls (midi_event zynseq [status; data1; data2] self) = [SetLevel ch lv] /\
  (0 <= ch <= 5 \/ 10 <= ch <= 12) /\
  lv = level_of (Z.land data2 0x7F) /\
  (0 <=? lv)%float = true /\ (lv <=? 1)%float = true.
Proof.
  rewrite midi_event_eq. cbv zeta.
  destruct (Z.eqb_spec (evtype_of status) 9) as [H9|H9].
  { destruct (get_note_xy_total (Z.land data1 127)) as (c & r & nm & Hxy).
    unfold bind. rewrite (note_on_eq zynseq _ _ _ _ _ _ _ Hxy). cbv zeta.
    destruct (_ >=? 0); cbn; intros Hin;
      repeat (destruct Hin as [Hin|Hin]; [discriminate|]); contradiction. }
  destruct (Z.eqb_spec (evtype_of status) 8) as [H8|H8];
    [cbn; contradiction|].
  destruct (Z.eqb_spec (evtype_of status) 11) as [HB|HB].
  - rewrite cc_change_masked.
    destruct (Z.gtb_spec (cc_mixer_channel (Z.land data1 127)) (-1))
      as [Hres|Hres]; cbn; [|contradiction].
    intros [Hin|[]]. injection Hin as <- <-.
    pose proof (level_of_ok _ (land_127_range data2)) as Hok.
    unfold level_ok in Hok.
    apply andb_prop in Hok as [Hok _]. apply andb_prop in Hok as [H0 H1].
    split; [exact HB|]. split; [reflexivity|].
    split; [|split; [reflexivity | split; assumption]].
    pose proof (cc_mixer_channel_cases (Z.land data1 127)). lia.
  - rewrite pressureChange_eq.
    destruct (evtype_of status =? 13); [|cbn; contradiction].
    destruct (_ =? 127); cbn; intros Hin;
      repeat (destruct Hin as [Hin|Hin]; [discriminate|]); contradiction.
Qed.

Lemma set_level_only_from_cc_witness :
  calls (midi_event grid4 (ev_cc 9 13 127) fresh) = [SetLevel 10 1%float].
Proof.
  apply (proj1 (proj2 (set_level_only_from_cc grid4 (0xB0 + 9) 13 127 fresh
                         10 1%float (or_introl eq_refl)))).
Defined.

(** Every ordered pair of CC values, checked by evaluation. *)
Lemma level_of_pairs_increase :
  forallb (fun i =>
    forallb (fun j =>
      if (i <? j)%nat
      then PrimFloat.ltb (level_of (Z.of_nat i)) (level_of (Z.of_nat j))
      else true) (seq 0 128)) (seq 0 128) = true.
Proof. vm_compute. reflexivity. Qed.

(** X12. The level is strictly increasing in the CC value over [0,127]:
    turning a dial up always raises the level handed to the mixer, and two
    different CC values never give the same level. *)
Theorem level_of_strictly_increasing (a b : Z) :
  0 <= a -> a < b -> b <= 127 ->
  (level_of a <? level_of b)%float = true.
Proof.
  intros Ha Hab Hb. pose proof level_of_pairs_increase as Hall.
  rewrite forallb_forall in Hall.
  specialize (Hall (Z.to_nat a) ltac:(apply in_seq; lia)).
  rewrite forallb_forall in Hall.
  specialize (Hall (Z.to_nat b) ltac:(apply in_seq; lia)).
  rewrite !Z2Nat.id in Hall by lia.
  replace (Z.to_nat a <? Z.to_nat b)%nat with true in Hall
    by (symmetry; apply Nat.ltb_lt; lia).
  exact Hall.
Qed.

Lemma level_of_strictly_increasing_witness :
  (level_of 63 <? level_of 64)%float = true.
Proof.
  apply (level_of_strictly_increasing 63 64); lia.
Defined.

(** * Further properties of the calls and of runs of events *)

(** X13. Handling one message, of any length and content, makes at most
    four collaborator calls; every togglePlayState and setPlayState among
    them names the sequencer's current bank, a toggled pad index is never
    negative, and the state handed to setPlayState is always 0. *)
Theorem midi_event_call_budget
    (zynseq : Zynseq.t) (ev : list Z) (self : driver) :
  (List.length (calls (midi_event zynseq ev self)) <= 4)%nat /\
  Forall (fun c =>
            match c with
            | TogglePlayState b p => b = Zynseq.bank zynseq /\ 0 <= p
            | SetPlayState b _ st => b = Zynseq.bank zynseq /\ st = 0
            | _ => True
            end)
         (calls (midi_event zynseq ev self)).
Proof.
  destruct ev as [|status [|data1 [|data2 rest]]];
    try (cbn; split; [lia | constructor]).
  change (midi_event zynseq (status :: data1 :: data2 :: rest) self)
    with (midi_event zynseq [status; data1; data2] self).
  rewrite midi_event_eq. cbv zeta.
  destruct (evtype_of status =? 9).
  { destruct (get_note_xy_total (Z.land data1 127)) as (c & r & nm & Hxy).
    unfold bind. rewrite (note_on_eq zynseq _ _ _ _ _ _ _ Hxy). cbv zeta.
    destruct (Z.geb_spec (Zynseq.get_pad_from_xy zynseq c r) 0); cbn;
      (split; [lia | repeat constructor; lia]). }
  destruct (evtype_of status =? 8); [cbn; split; [lia | constructor]|].
  destruct (evtype_of status =? 11).
  - rewrite cc_change_masked. destruct (_ >? -1); cbn;
      (split; [lia | repeat constructor]).
  - rewrite pressureChange_eq.
    destruct (evtype_of status =? 13); [|cbn; split; [lia | constructor]].
    destruct (_ =? 127); cbn; (split; [lia | repeat constructor]).
Qed.

Section Runs.

Variable zynseq : Zynseq.t.

(** Delivering a run and then one more event. *)
Lemma deliver_snoc (evs : list (list Z)) :
  forall (ev : list Z) (self self1 : driver) (t1 : list call),
    deliver zynseq evs self = (Ok tt, self1, t1) ->
    deliver zynseq (evs ++ [ev]) self
    = let '(r, self2, t2) := midi_event zynseq ev self1 in
      (match r with Ok _ => Ok tt | Raise e => Raise e end, self2, t1 ++ t2).
Proof.
  induction evs as [|e evs IH]; intros ev self self1 t1 Hrun.
  - cbn in Hrun. injection Hrun as <- <-.
    cbn [app deliver]. unfold bind.
    destruct (midi_event zynseq ev self) as [[[r|x] self2] t2]; cbn;
      rewrite ?app_nil_r; reflexivity.
  - cbn [app deliver] in *. unfold bind at 1 in Hrun. unfold bind at 1.
    destruct (midi_event zynseq e self) as [[[r|x] self0] t0];
      [|discriminate Hrun].
    destruct (deliver zynseq evs self0) as [[r' self'] t'] eqn:Hrest.
    injection Hrun as -> -> <-.
    rewrite (IH ev self0 self1 t' Hrest).
    destruct (midi_event zynseq ev self1) as [[r2 self2] t2].
    rewrite app_assoc. reflexivity.
Qed.

End Runs.

(** X14. After any run of three-byte messages, a full-pressure message
    launches the scene that starts at the note of the run's last note-on
    when no note-off came after it, at -1 when the run's last note event
    was a note-off, and at whatever was held before when the run has no
    note event: the run never raises, and the four setPlayState calls
    follow the calls of the run. *)
Theorem scene_follows_last_note_event
    (zynseq : Zynseq.t) (evs : list (list Z)) (st : pad_state)
    (status data1 data2 : Z) (self : driver) :
  Forall (fun ev => List.length ev = 3%nat) evs ->
  currentNotePressed self = encode st ->
  evtype_of status = 0xD -> Z.land data1 0x7F = 127 ->
  let held := encode (fold_left transition evs st) in
  deliver zynseq (evs ++ [[status; data1; data2]]) self
  = (Ok tt, {| currentNotePressed := held |},
     calls (deliver zynseq evs self)
       ++ [SetPlayState (Zynseq.bank zynseq) held 0;
           SetPlayState (Zynseq.bank zynseq) (held + 1) 0;
           SetPlayState (Zynseq.bank zynseq) (held + 2) 0;
           SetPlayState (Zynseq.bank zynseq) (held + 3) 0]).
Proof.
  intros Hlen Hst Hty Hmax held.
  destruct (deliver_simulates zynseq evs Hlen st self Hst) as (t & Hrun).
  rewrite (deliver_snoc zynseq evs _ _ _ _ Hrun), Hrun.
  rewrite midi_event_eq. cbv zeta. rewrite Hty. cbn [Z.eqb Pos.eqb].
  rewrite pressureChange_eq, Hmax. reflexivity.
Qed.

Lemma scene_follows_last_note_event_witness :
  calls (deliver grid4
           ([ev_note_on 9 40 100; ev_note_on 9 44 100; ev_cc 9 16 3]
              ++ [ev_pressure 9 127]) fresh)
  = [GetPadFromXY 0 2; TogglePlayState 1 2;
     GetPadFromXY 0 1; TogglePlayState 1 1; SetLevel 0 (level_of 3);
     SetPlayState 1 44 0; SetPlayState 1 45 0;
     SetPlayState 1 46 0; SetPlayState 1 47 0].
Proof.
  refine (f_equal calls
            (scene_follows_last_note_event grid4
               [ev_note_on 9 40 100; ev_note_on 9 44 100; ev_cc 9 16 3]
               Idle (0xD0 + 9) 127 0 fresh _ eq_refl eq_refl eq_refl)).
  repeat constructor.
Defined.

(** X15. The dispatcher returns None for every message of at least three
    elements, also for a note-on whose handler returned True: note_on
    returns True exactly when the lookup found a pad, and that value is
    dropped. *)
Theorem midi_event_returns_None
    (zynseq : Zynseq.t) (ev : list Z) (self : driver)
    (note channel velocity col row : Z) (name : string) :
  (3 <= List.length ev)%nat ->
  get_note_xy note = Ok (col, row, name) ->
  result (midi_event zynseq ev self) = Ok None /\
  result (note_on zynseq note channel velocity self)
  = Ok (if Zynseq.get_pad_from_xy zynseq col row >=? 0
        then Some true else None).
Proof.
  intros Hlen Hxy. split.
  - destruct ev as [|status [|data1 [|data2 rest]]]; cbn in Hlen; try lia.
    change (midi_event zynseq (status :: data1 :: data2 :: rest) self)
      with (midi_event zynseq [status; data1; data2] self).
    rewrite midi_event_eq. cbv zeta.
    destruct (evtype_of status =? 9).
    { destruct (note_on_final zynseq (Z.land data1 127) (Z.land status 15)
                  (Z.land data2 127) self) as (r & Hr & _).
      unfold result, bind in *.
      destruct (note_on _ _ _ _ _) as [[o self1] t1]. cbn in Hr. subst o.
      reflexivity. }
    destruct (evtype_of status =? 8); [reflexivity|].
    rewrite cc_change_masked, pressureChange_eq.
    destruct (evtype_of status =? 11); [reflexivity|].
    destruct (evtype_of status =? 13); reflexivity.
  - rewrite (note_on_eq zynseq _ _ _ _ _ _ _ Hxy). cbv zeta.
    destruct (_ >=? 0); reflexivity.
Qed.

Lemma midi_event_returns_None_witness :
  result (midi_event grid4 (ev_note_on 9 40 100) fresh) = Ok None /\
  result (note_on grid4 40 9 100 fresh) = Ok (Some true).
Proof.
  apply (midi_event_returns_None grid4 (ev_note_on 9 40 100) fresh
           40 9 100 0 2 "A"%string).
  - cbn. lia.
  - reflexivity.
Defined.
